(** * gerrit_view: the packaging descriptor [setup.py]

    A shallow embedding of [setup.py] and the properties of its two file
    readers and of the keyword arguments it hands to [setuptools.setup].

    The descriptor is Python 2 code: both files are opened in mode ['rb'],
    so lines and file contents are [str] values, that is byte strings, and
    [line.startswith("#")] compares two of them.  A byte string is modelled
    by [string], whose characters are the 256 values of [ascii].  File
    access is modelled by a small monad over a read-only file store
    ([gmap string file]) that logs every file operation and may raise
    [IOError], the exception of [open] (with the file name) and of a failing
    read (without). *)

From Stdlib Require Import Ascii.
From stdpp Require Import base list strings gmap.

(** ** Byte strings: the [str] methods the descriptor calls *)

Module Str.

(** A [str] literal of one character. *)
Definition chr (c : ascii) : string := String c "".

Definition newline : ascii := "010"%char.
Definition hash : ascii := "#"%char.
Definition slash : ascii := "/"%char.

(** [isspace] of the C locale, which [str.strip()] without argument uses:
    tab, line feed, vertical tab, form feed, carriage return and space. *)
Definition isspace (c : ascii) : bool :=
  match c with
  | "009" | "010" | "011" | "012" | "013" | " " => true
  | _ => false
  end%char.

(** [s.lstrip()]. *)
Fixpoint lstrip (s : string) : string :=
  match s with
  | "" => ""
  | String c r => if isspace c then lstrip r else s
  end.

(** [s.rstrip()]. *)
Fixpoint rstrip (s : string) : string :=
  match s with
  | "" => ""
  | String c r =>
      match rstrip r with
      | "" => if isspace c then "" else chr c
      | r' => String c r'
      end
  end.

(** [s.strip()]: the slice between the first and the last character that
    is not white space. *)
Definition strip (s : string) : string := rstrip (lstrip s).

(** [s.startswith(p)]. *)
Fixpoint startswith (s p : string) {struct p} : bool :=
  match p, s with
  | "", _ => true
  | String _ _, "" => false
  | String a p', String b s' => bool_decide (a = b) && startswith s' p'
  end.

(** [s.endswith(p)] for a one-character [p]. *)
Fixpoint endswith_chr (s : string) (c : ascii) : bool :=
  match s with
  | "" => false
  | String a "" => bool_decide (a = c)
  | String _ r => endswith_chr r c
  end.

(** [not s]: the truth value of a [str] is false exactly when it is
    empty. *)
Definition is_empty (s : string) : bool :=
  match s with "" => true | _ => false end.

(** The lines a file object opened in binary mode iterates over: each one
    runs up to and including the next line feed; the last one may lack it.
    No other character ends a line. *)
Fixpoint readlines (s : string) : list string :=
  match s with
  | "" => []
  | String c r =>
      if bool_decide (c = newline) then chr c :: readlines r
      else match readlines r with
           | [] => [chr c]
           | l :: ls => String c l :: ls
           end
  end.

(** [s.rfind('/') + 1]: the length of the prefix that ends with the last
    slash, [0] when there is none. *)
Fixpoint after_last_slash (s : string) : nat :=
  match s with
  | "" => 0
  | String c r =>
      match after_last_slash r with
      | 0 => if bool_decide (c = slash) then 1 else 0
      | S n => S (S n)
      end
  end.

(** [s[:n]]. *)
Fixpoint take (n : nat) (s : string) : string :=
  match n, s with
  | S n', String c r => String c (take n' r)
  | _, _ => ""
  end.

(** [s.rstrip('/')]. *)
Fixpoint rstrip_slash (s : string) : string :=
  match s with
  | "" => ""
  | String c r =>
      match rstrip_slash r with
      | "" => if bool_decide (c = slash) then "" else chr c
      | r' => String c r'
      end
  end.

(** [s == '/' * len(s)]. *)
Fixpoint all_slashes (s : string) : bool :=
  match s with
  | "" => true
  | String c r => bool_decide (c = slash) && all_slashes r
  end.

End Str.

(** ** [os.path] on POSIX, as [setup.py] uses it *)

Module posixpath.

(** [os.path.join(a, b)]. *)
Definition join (a b : string) : string :=
  if Str.startswith b "/" then b
  else if Str.is_empty a || Str.endswith_chr a Str.slash then a +:+ b
  else a +:+ "/" +:+ b.

(** [os.path.dirname(p)]. *)
Definition dirname (p : string) : string :=
  let i := Str.after_last_slash p in
  let head := Str.take i p in
  if negb (Str.is_empty head) && negb (Str.all_slashes head)
  then Str.rstrip_slash head
  else head.

End posixpath.

(** ** Files, exceptions and the file-access monad *)

(** What [open(path, 'rb')] finds at a path of the store: a file whose bytes
    can be read, or one that opens but whose read fails (an I/O fault).  A
    path absent from the store cannot be opened at all. *)
Inductive file : Type :=
  | Content (data : string)
  | Unreadable.

(** The only exception the descriptor's own code can meet: [IOError].  The
    one [open] raises carries the name of the file; the one a failing read
    raises carries none. *)
Inductive exn : Type :=
  | IOError (filename : option string).

(** The keyword arguments of the call [setup(...)]: the package manifest. *)
Record Manifest : Type := mkManifest {
  name : string;
  version : string;
  description : string;
  author : string;
  author_email : string;
  url : string;
  scripts : list string;
  license : string;
  install_requires : list string;
  classifiers : list string;
  keywords : string;
  long_description : string
}.

(** What a run does to the outside, in the order it does it: each call of
    [open], each read of an open file, each release of one, and the call of
    [setup] with its keyword arguments. *)
Inductive event : Type :=
  | EOpen (path : string)
  | ERead (path : string)
  | EClose (path : string)
  | ESetup (kw : Manifest).

(** A computation reads the store, extends the log and ends with a value or
    with an exception. *)
Definition IO (A : Type) : Type :=
  gmap string file → list event → list event * (exn + A).

Definition ret {A} (a : A) : IO A := λ _ t, (t, inr a).

Definition raise {A} (e : exn) : IO A := λ _ t, (t, inl e).

Definition bind {A B} (m : IO A) (k : A → IO B) : IO B :=
  λ fs t,
    match m fs t with
    | (t', inl e) => (t', inl e)
    | (t', inr a) => k a fs t'
    end.

Definition log (ev : event) : IO unit := λ _ t, (t ++ [ev], inr tt).

#[global] Instance IO_ret : MRet IO := @ret.
#[global] Instance IO_bind : MBind IO := λ A B k m, bind m k.

(** A run from the empty log. *)
Definition run {A} (m : IO A) (fs : gmap string file) : list event * (exn + A) :=
  m fs [].

(** An open file object: its name and what is behind it. *)
Record handle : Type := mkHandle { h_name : string; h_file : file }.

(** [open(path, 'rb')]. *)
Definition open (path : string) : IO handle :=
  λ fs t,
    match fs !! path with
    | Some f => (t ++ [EOpen path], inr (mkHandle path f))
    | None => (t ++ [EOpen path], inl (IOError (Some path)))
    end.

(** All the lines of [for line in fh]. *)
Definition iter_lines (fh : handle) : IO (list string) :=
  log (ERead (h_name fh));;
  match h_file fh with
  | Content data => mret (Str.readlines data)
  | Unreadable => raise (IOError None)
  end.

(** [fh.read()]. *)
Definition read (fh : handle) : IO string :=
  log (ERead (h_name fh));;
  match h_file fh with
  | Content data => mret data
  | Unreadable => raise (IOError None)
  end.

(** [m], then the event [ev] whether [m] returns or raises. *)
Definition finally {A} (m : IO A) (ev : event) : IO A :=
  λ fs t,
    match m fs t with
    | (t', r) => (t' ++ [ev], r)
    end.

(** [with open(path, 'rb') as fh: body]: the file is released when the body
    ends, whether it returns or raises; a failing [open] releases nothing. *)
Definition with_open {A} (path : string) (body : handle → IO A) : IO A :=
  fh ← open path;
  finally (body fh) (EClose (h_name fh)).

(** ** The descriptor *)

Section setup_py.

(** [__file__]: the path the descriptor was started under. *)
Variable file__ : string.

Definition _path (fn : string) : string :=
  posixpath.join (posixpath.dirname file__) fn.

(** One turn of the loop of [_requirements], on the list [reqs] built so
    far: [continue] leaves it as it is, [reqs.append(line)] extends it. *)
Definition _requirements_step (reqs : list string) (line : string) : list string :=
  let line := Str.strip line in
  if Str.is_empty line || Str.startswith line "#" then reqs
  else reqs ++ [line].

Definition _requirements : IO (list string) :=
  let reqs := [] in
  with_open (_path "requirements.txt") (λ fh,
    lines ← iter_lines fh;
    mret (foldl _requirements_step reqs lines)).

Definition _long_description : IO string :=
  with_open (_path "README.rst") (λ fh, read fh).

(** [setuptools.setup] is outside the descriptor: the call is logged with
    its keyword arguments. *)
Definition setup (kw : Manifest) : IO unit := log (ESetup kw).

(** The keyword arguments of the call, given the values of the two that
    are read from files. *)
Definition setup_kwargs (install_requires_ : list string)
    (long_description_ : string) : Manifest :=
  {| name := "gerrit-view";
     version := "0.1";
     description := "Gerrit viewer tools";
     author := "Joshua Harlow";
     author_email := "harlowja@yahoo-inc.com";
     url := "http://github.com/harlowja/gerrit_view/";
     scripts := [
       _path (posixpath.join "scripts" "cgerrit");
       _path (posixpath.join "scripts" "qgerrit")
     ];
     license := "ASL 2.0";
     install_requires := install_requires_;
     classifiers := [
       "Development Status :: 4 - Beta";
       "Topic :: Utilities";
       "License :: OSI Approved :: Apache Software License";
       "Operating System :: POSIX :: Linux";
       "Programming Language :: Python"
     ];
     keywords := "gerrit curses urwid console";
     long_description := long_description_ |}.

(** The module body: the keyword arguments are evaluated from left to
    right, [install_requires] before [long_description], the others
    without touching a file; then [setup] is called. *)
Definition main : IO unit :=
  install_requires_ ← _requirements;
  long_description_ ← _long_description;
  setup (setup_kwargs install_requires_ long_description_).

End setup_py.

(** The manifests a log shows, one for each call of [setup]. *)
Definition produced (t : list event) : list Manifest :=
  omap (λ ev, match ev with ESetup kw => Some kw | _ => None end) t.

(** The paths a log touches. *)
Definition touched (t : list event) : list string :=
  omap (λ ev, match ev with
              | EOpen p | ERead p | EClose p => Some p
              | ESetup _ => None
              end) t.

(** Two manifests that agree in every field but, possibly, [scripts]. *)
Definition agree_outside_scripts (m1 m2 : Manifest) : Prop :=
  name m1 = name m2
  ∧ version m1 = version m2
  ∧ description m1 = description m2
  ∧ author m1 = author m2
  ∧ author_email m1 = author_email m2
  ∧ url m1 = url m2
  ∧ license m1 = license m2
  ∧ install_requires m1 = install_requires m2
  ∧ classifiers m1 = classifiers m2
  ∧ keywords m1 = keywords m2
  ∧ long_description m1 = long_description m2.

(** A file of the store that opens and reads. *)
Definition readable (fs : gmap string file) (path : string) : bool :=
  match fs !! path with
  | Some (Content _) => true
  | _ => false
  end.

(** ** What the spec says the requirements reader returns *)

(** The spec's words: strip each line; skip it when the result is empty or
    begins with the comment marker; keep the trimmed text otherwise, in
    input order. *)
Definition kept (trimmed : string) : bool :=
  match trimmed with
  | "" => false
  | String c _ => negb (bool_decide (c = Str.hash))
  end.

Definition spec_requirements (content : string) : list string :=
  filter (λ l, kept l = true) (Str.strip <$> Str.readlines content).

(** What [os.path.join] puts between a directory and a relative name. *)
Definition dir_sep (dir : string) : string :=
  if Str.is_empty dir || Str.endswith_chr dir Str.slash then "" else "/".

(** A line feed as a one-character string, for writing file contents. *)
Definition LF : string := Str.chr Str.newline.

(** The first character of a line that is not white space, if any. *)
Fixpoint first_nonspace (s : string) : option ascii :=
  match s with
  | "" => None
  | String c r => if Str.isspace c then first_nonspace r else Some c
  end.

(** A string without line feed. *)
Fixpoint no_newline (s : string) : bool :=
  match s with
  | "" => true
  | String c r => negb (bool_decide (c = Str.newline)) && no_newline r
  end.

(** What may stand in a dependency list: a non-empty text that neither
    starts nor ends with white space and does not start with ['#']. *)
Definition specifier (r : string) : Prop :=
  r ≠ ""
  ∧ (∀ c r', r = String c r' → Str.isspace c = false ∧ c ≠ Str.hash)
  ∧ (∀ r' c, r = r' +:+ Str.chr c → Str.isspace c = false).

(** ** Notions for the further properties *)

(** A string of white space only. *)
Fixpoint all_space (s : string) : bool :=
  match s with
  | "" => true
  | String c r => Str.isspace c && all_space r
  end.

(** ** The requirements reader in the spec's words, without the functions
    of the code *)

(** [lines] are the lines of [content]: each one runs up to and including a
    line feed and holds no other; a last line without line feed counts when
    it is not empty. *)
Inductive is_lines : string → list string → Prop :=
  | is_lines_nil : is_lines "" []
  | is_lines_last (body : string) :
      no_newline body = true → body ≠ "" → is_lines body [body]
  | is_lines_cons (body rest : string) (lines : list string) :
      no_newline body = true →
      is_lines rest lines →
      is_lines (body +:+ LF +:+ rest) ((body +:+ LF) :: lines).

(** [t] is [line] stripped of leading and trailing white space: [line] is
    white space, then [t], then white space, and [t] neither starts nor ends
    with white space. *)
Definition trimmed_of (line t : string) : Prop :=
  ∃ pre post,
    line = pre +:+ t +:+ post
    ∧ all_space pre = true
    ∧ all_space post = true
    ∧ (∀ c r, t = String c r → Str.isspace c = false)
    ∧ (∀ r c, t = r +:+ Str.chr c → Str.isspace c = false).

(** [reqs] is what the spec makes of [lines]: going through them in order,
    each line is trimmed; it is skipped when the trimmed text is empty or
    begins with ['#'], and the trimmed text is the next entry otherwise. *)
Inductive reads_as : list string → list string → Prop :=
  | reads_nil : reads_as [] []
  | reads_skip (line t : string) (lines reqs : list string) :
      trimmed_of line t → kept t = false →
      reads_as lines reqs → reads_as (line :: lines) reqs
  | reads_keep (line t : string) (lines reqs : list string) :
      trimmed_of line t → kept t = true →
      reads_as lines reqs → reads_as (line :: lines) (t :: reqs).

(** A file content that is empty or ends with a line feed: every line of it
    is terminated. *)
Definition complete_lines (s : string) : bool :=
  Str.is_empty s || Str.endswith_chr s Str.newline.

(** A path with a slash in it. *)
Fixpoint has_slash (s : string) : bool :=
  match s with
  | "" => false
  | String c r => bool_decide (c = Str.slash) || has_slash r
  end.

(** Carriage return and line feed, the line end of a file written on
    Windows. *)
Definition CRLF : string := String "013" LF.

(** A file content written from a list, one entry per line, each line ended
    by [eol]. *)
Definition join_lines (eol : string) (ls : list string) : string :=
  foldr (λ l acc, l +:+ eol +:+ acc) "" ls.

(** The file held open after an event, given the one held before: an [open]
    that finds its file takes it, a release gives it back. *)
Definition hold (fs : gmap string file) (held : option string) (ev : event) :
    option string :=
  match ev with
  | EOpen p => match fs !! p with Some _ => Some p | None => held end
  | EClose _ => None
  | ERead _ | ESetup _ => held
  end.

(** What an event requires of the file held when it happens: [open] and
    [setup] that none is, a read and a release that it is theirs. *)
Definition allowed (held : option string) (ev : event) : bool :=
  match ev with
  | EOpen _ | ESetup _ => bool_decide (held = None)
  | ERead p | EClose p => bool_decide (held = Some p)
  end.

(** A log that keeps the discipline from [held] on: every event is allowed
    when it happens, and no file is held at the end. *)
Fixpoint disciplined (fs : gmap string file) (held : option string)
    (t : list event) : bool :=
  match t with
  | [] => bool_decide (held = None)
  | ev :: t' => allowed held ev && disciplined fs (hold fs held ev) t'
  end.

(** ** Sample inputs *)

(** A requirements file with an empty line, a comment line, a line of two
    spaces and two specifiers. *)
Definition sample_requirements : string :=
  LF +:+ "# comment" +:+ LF +:+ "  " +:+ LF +:+ "requests>=2.0" +:+ LF
     +:+ "urwid" +:+ LF.

(** A requirements file with a ['#'] in the middle of a line. *)
Definition pinned_requirements : string :=
  "urwid" +:+ LF +:+ "pkg==1.0  # pinned" +:+ LF +:+ "# end" +:+ LF.

Definition sample_readme : string := "Hello" +:+ LF +:+ "World" +:+ LF.

(** A source tree seen from its own directory.  Both files are there, each
    under the two names it goes by: the one a descriptor started as
    [setup.py] asks for and the one a descriptor started as [./setup.py]
    asks for. *)
Definition sample_tree : gmap string file :=
  {[ "requirements.txt" := Content sample_requirements;
     "README.rst" := Content sample_readme;
     "./requirements.txt" := Content sample_requirements;
     "./README.rst" := Content sample_readme ]}.

(** A tree whose requirements file has a pinned line. *)
Definition pinned_tree : gmap string file :=
  {[ "requirements.txt" := Content pinned_requirements;
     "README.rst" := Content sample_readme ]}.

(** A tree whose two files are empty. *)
Definition empty_files_tree : gmap string file :=
  {[ "/src/requirements.txt" := Content "";
     "/src/README.rst" := Content "" ]}.

(** A tree without requirements file. *)
Definition no_requirements_tree : gmap string file :=
  {[ "README.rst" := Content sample_readme ]}.

(** A requirements file whose last line lacks its line feed, and the same
    file with it. *)
Definition unterminated_tree : gmap string file :=
  {[ "requirements.txt" := Content ("# deps" +:+ LF +:+ " urwid") ]}.

Definition terminated_tree : gmap string file :=
  {[ "requirements.txt" := Content (("# deps" +:+ LF +:+ " urwid") +:+ LF) ]}.

(** A requirements file made of two, one after the other. *)
Definition merged_tree : gmap string file :=
  {[ "requirements.txt"
       := Content (sample_requirements +:+ pinned_requirements) ]}.

(** Three lines, for a file written with either line end. *)
Definition sample_bodies : list string :=
  ["urwid"; "  # local"; "requests>=2.0 "].

Definition crlf_tree : gmap string file :=
  {[ "requirements.txt" := Content (join_lines CRLF sample_bodies) ]}.

Definition lf_tree : gmap string file :=
  {[ "requirements.txt" := Content (join_lines LF sample_bodies) ]}.

(** The list read from [pinned_tree], written back one entry per line. *)
Definition rewritten_tree : gmap string file :=
  {[ "/tmp/requirements.txt"
       := Content (join_lines LF ["urwid"; "pkg==1.0  # pinned"]) ]}.

(** A tree without description file. *)
Definition no_readme_tree : gmap string file :=
  {[ "requirements.txt" := Content sample_requirements ]}.

(** A tree whose two files open but do not read. *)
Definition faulty_tree : gmap string file :=
  {[ "requirements.txt" := Unreadable; "README.rst" := Unreadable ]}.

(** ** Proof steps *)

(** Unfolds the operations of the monad down to the store and the log. *)
Ltac io_unfold :=
  unfold with_open, finally, open, iter_lines, read, setup, log, raise,
    mbind, IO_bind, bind, mret, IO_ret, ret; cbn.

(** Proves [x ∉ [y1; ...; yn]] when [x] differs from each [yi] by
    congruence. *)
Ltac not_in_list :=
  repeat (apply not_elem_of_cons; split; [congruence|]);
  apply not_elem_of_nil.

(** * Properties *)

(** ** The library functions on sample values *)

Example strip_sample :
  Str.strip ("  requests>=2.0 " +:+ LF) = "requests>=2.0"
  ∧ Str.strip ("  " +:+ LF) = ""
  ∧ Str.strip "a  b" = "a  b".
Proof. repeat split. Qed.

Example readlines_sample :
  Str.readlines ("a" +:+ LF +:+ LF +:+ "b c" +:+ LF +:+ "d")
  = ["a" +:+ LF; LF; "b c" +:+ LF; "d"].
Proof. reflexivity. Qed.

Example dirname_sample :
  posixpath.dirname "/opt/gerrit_view/setup.py" = "/opt/gerrit_view"
  ∧ posixpath.dirname "setup.py" = ""
  ∧ posixpath.dirname "./setup.py" = "."
  ∧ posixpath.dirname "/setup.py" = "/"
  ∧ posixpath.dirname "a//setup.py" = "a".
Proof. repeat split. Qed.

Example join_sample :
  posixpath.join "/opt/gerrit_view" "README.rst" = "/opt/gerrit_view/README.rst"
  ∧ posixpath.join "" "README.rst" = "README.rst"
  ∧ posixpath.join "/" "README.rst" = "/README.rst"
  ∧ posixpath.join "scripts" "cgerrit" = "scripts/cgerrit".
Proof. repeat split. Qed.

(** ** Byte strings *)

Section str_facts.

Lemma str_app_cons (c : ascii) (s t : string) :
  String c s +:+ t = String c (s +:+ t).
Proof. reflexivity. Qed.

Lemma str_app_nil_l (s : string) : "" +:+ s = s.
Proof. reflexivity. Qed.

(** [lstrip] stops at a character that is not white space. *)
Lemma lstrip_head (s : string) c r :
  Str.lstrip s = String c r → Str.isspace c = false.
Proof.
  induction s as [|a s IH]; [done|]. simpl.
  destruct (Str.isspace a) eqn:Ha; [done|]. by intros [= <- _].
Qed.

(** When [rstrip] leaves something, it starts as the string did. *)
Lemma rstrip_cons_inv (a : ascii) (s : string) c r :
  Str.rstrip (String a s) = String c r → a = c ∧ r = Str.rstrip s.
Proof.
  simpl. destruct (Str.rstrip s) as [|b u].
  - destruct (Str.isspace a); [done|]. by intros [= -> <-].
  - by intros [= -> <-].
Qed.

(** [rstrip] stops at a character that is not white space. *)
Lemma rstrip_last (s r : string) (c : ascii) :
  Str.rstrip s = r +:+ Str.chr c → Str.isspace c = false.
Proof.
  revert r. induction s as [|a s IH]; intros r.
  - by destruct r.
  - destruct r as [|b r].
    + rewrite str_app_nil_l. simpl.
      destruct (Str.rstrip s) as [|? [|? ?]]; [|done..].
      destruct (Str.isspace a) eqn:Ha; [done|]. by intros [= <-].
    + rewrite str_app_cons. intros [_ H]%rstrip_cons_inv. by eapply IH.
Qed.

Lemma strip_head (s : string) c r :
  Str.strip s = String c r → Str.isspace c = false.
Proof.
  unfold Str.strip. destruct (Str.lstrip s) as [|a u] eqn:Hl; [done|].
  intros [-> _]%rstrip_cons_inv. by eapply lstrip_head.
Qed.

(** The stripped line starts with the first character of the line that is
    not white space, and is empty when there is none. *)
Lemma strip_first_nonspace (s : string) :
  first_nonspace s
  = match Str.strip s with "" => None | String c _ => Some c end.
Proof.
  induction s as [|a s IH]; [done|]. unfold Str.strip in *. simpl.
  destruct (Str.isspace a) eqn:Ha; [done|]. simpl.
  destruct (Str.rstrip s); by rewrite ?Ha.
Qed.

Lemma strip_last (s r : string) (c : ascii) :
  Str.strip s = r +:+ Str.chr c → Str.isspace c = false.
Proof. apply rstrip_last. Qed.

(** The lines of a file, put together, are the file. *)
Lemma readlines_concat (s : string) :
  foldr String.app "" (Str.readlines s) = s.
Proof.
  induction s as [|c s IH]; [done|]. simpl. case_bool_decide.
  - simpl. by rewrite IH.
  - destruct (Str.readlines s) as [|l ls]; simpl in *; by rewrite <-IH.
Qed.

(** A line runs up to and including the first line feed. *)
Lemma readlines_line (l rest : string) :
  no_newline l = true →
  Str.readlines (l +:+ LF +:+ rest) = (l +:+ LF) :: Str.readlines rest.
Proof.
  induction l as [|c l IH]; [done|]. simpl.
  intros [Hc Hl]%andb_prop. apply negb_true_iff, bool_decide_eq_false in Hc.
  rewrite !str_app_cons. simpl. rewrite bool_decide_false; [|done].
  by rewrite IH.
Qed.

(** A last line without line feed is a line all the same. *)
Lemma readlines_last (l : string) :
  no_newline l = true → l ≠ "" → Str.readlines l = [l].
Proof.
  induction l as [|c l IH]; [done|]. simpl.
  intros [Hc Hl]%andb_prop _. apply negb_true_iff, bool_decide_eq_false in Hc.
  rewrite bool_decide_false; [|done]. destruct l as [|d l]; [done|].
  by rewrite IH.
Qed.

(** No line is empty. *)
Lemma readlines_nonempty (s : string) : Forall (λ l, l ≠ "") (Str.readlines s).
Proof.
  induction s as [|c s IH]; [constructor|]. simpl. case_bool_decide.
  - by constructor.
  - destruct (Str.readlines s) as [|l ls]; [by repeat constructor|].
    inversion_clear IH. by constructor.
Qed.

End str_facts.

(** ** White space and [strip] *)

Section strip_facts.

Lemma str_app_nil_r (s : string) : s +:+ "" = s.
Proof. induction s as [|c s IH]; [done|]. by rewrite str_app_cons, IH. Qed.

Lemma str_app_assoc (s1 s2 s3 : string) :
  (s1 +:+ s2) +:+ s3 = s1 +:+ s2 +:+ s3.
Proof. induction s1 as [|c s1 IH]; [done|]. by rewrite !str_app_cons, IH. Qed.

Lemma all_space_app (s1 s2 : string) :
  all_space (s1 +:+ s2) = all_space s1 && all_space s2.
Proof.
  induction s1 as [|c s1 IH]; [done|]. rewrite str_app_cons. simpl.
  by rewrite IH, andb_assoc.
Qed.

Lemma no_newline_app (s1 s2 : string) :
  no_newline (s1 +:+ s2) = no_newline s1 && no_newline s2.
Proof.
  induction s1 as [|c s1 IH]; [done|]. rewrite str_app_cons. simpl.
  by rewrite IH, andb_assoc.
Qed.

Lemma lstrip_all_space (s : string) : all_space s = true → Str.lstrip s = "".
Proof.
  induction s as [|c s IH]; [done|]. simpl.
  intros [-> H]%andb_prop. by apply IH.
Qed.

Lemma rstrip_all_space (s : string) : all_space s = true → Str.rstrip s = "".
Proof.
  induction s as [|c s IH]; [done|]. simpl.
  intros [-> H]%andb_prop. by rewrite IH.
Qed.

(** [lstrip] takes away a prefix of white space and nothing else. *)
Lemma lstrip_split (s : string) :
  ∃ pre, s = pre +:+ Str.lstrip s ∧ all_space pre = true.
Proof.
  induction s as [|c s (pre & E & Hpre)]; [by exists ""|]. simpl.
  destruct (Str.isspace c) eqn:Hc; [|by exists ""].
  exists (String c pre). rewrite str_app_cons, <-E. simpl. by rewrite Hc.
Qed.

(** [rstrip] takes away a suffix of white space and nothing else. *)
Lemma rstrip_split (s : string) :
  ∃ post, s = Str.rstrip s +:+ post ∧ all_space post = true.
Proof.
  induction s as [|c s (post & E & Hpost)]; [by exists ""|]. simpl.
  destruct (Str.rstrip s) as [|d u] eqn:Hr.
  - destruct (Str.isspace c) eqn:Hc.
    + exists (String c s). split; [done|]. simpl. rewrite Hc.
      rewrite E. by rewrite str_app_nil_l.
    + exists post. split; [|done]. unfold Str.chr.
      by rewrite str_app_cons, str_app_nil_l, E at 1.
  - exists post. split; [|done]. by rewrite str_app_cons, <-E.
Qed.

(** [strip] takes away white space at both ends and nothing else. *)
Lemma strip_split (s : string) :
  ∃ pre post,
    s = pre +:+ Str.strip s +:+ post
    ∧ all_space pre = true ∧ all_space post = true.
Proof.
  destruct (lstrip_split s) as (pre & E1 & Hpre).
  destruct (rstrip_split (Str.lstrip s)) as (post & E2 & Hpost).
  exists pre, post. unfold Str.strip. by rewrite <-E2.
Qed.

(** White space added at the end is stripped with the rest. *)
Lemma rstrip_app_space (s w : string) :
  all_space w = true → Str.rstrip (s +:+ w) = Str.rstrip s.
Proof.
  intros Hw. induction s as [|c s IH].
  - rewrite str_app_nil_l. by apply rstrip_all_space.
  - rewrite str_app_cons. simpl. by rewrite IH.
Qed.

Lemma lstrip_app (s w : string) :
  Str.lstrip (s +:+ w)
  = if all_space s then Str.lstrip w else Str.lstrip s +:+ w.
Proof.
  induction s as [|c s IH]; [done|]. rewrite str_app_cons. simpl.
  destruct (Str.isspace c); [done|]. by rewrite str_app_cons.
Qed.

Lemma strip_app_space (s w : string) :
  all_space w = true → Str.strip (s +:+ w) = Str.strip s.
Proof.
  intros Hw. unfold Str.strip. rewrite lstrip_app.
  destruct (all_space s) eqn:Hs.
  - by rewrite !lstrip_all_space.
  - by apply rstrip_app_space.
Qed.

(** A string that does not end with white space is its own [rstrip]. *)
Lemma rstrip_fixed (r : string) :
  (∀ r' c, r = r' +:+ Str.chr c → Str.isspace c = false) →
  Str.rstrip r = r.
Proof.
  induction r as [|c r IH]; [done|]. intros H. simpl. rewrite IH.
  - destruct r as [|d r]; [|done]. by rewrite (H "" c).
  - intros r' d ->. apply (H (String c r') d). by rewrite str_app_cons.
Qed.

(** A well-formed specifier is left as it is by [strip], and kept. *)
Lemma strip_specifier (r : string) :
  specifier r → Str.strip r = r ∧ kept r = true.
Proof.
  intros (Hne & Hhead & Hlast). destruct r as [|c r]; [done|].
  destruct (Hhead c r eq_refl) as [Hc Hhash]. split.
  - unfold Str.strip. simpl. rewrite Hc. by apply rstrip_fixed.
  - simpl. apply negb_true_iff. by apply bool_decide_eq_false.
Qed.

End strip_facts.

(** ** Lines *)

Section line_facts.

Lemma readlines_nil_inv (s : string) : Str.readlines s = [] → s = "".
Proof.
  destruct s as [|c s]; [done|]. simpl. case_bool_decide; [done|].
  by destruct (Str.readlines s).
Qed.

Lemma complete_lines_cons (c : ascii) (s : string) :
  complete_lines (String c s) = true → complete_lines s = true.
Proof.
  unfold complete_lines. simpl. destruct s as [|d s]; [done|]. by simpl.
Qed.

(** After a content whose lines are all terminated, the lines of what
    follows start afresh. *)
Lemma readlines_app (s1 s2 : string) :
  complete_lines s1 = true →
  Str.readlines (s1 +:+ s2) = Str.readlines s1 ++ Str.readlines s2.
Proof.
  induction s1 as [|c s1 IH]; [done|]. intros Hc.
  pose proof (complete_lines_cons _ _ Hc) as Hs1.
  rewrite str_app_cons. simpl. rewrite IH by done. case_bool_decide as Hnl.
  - done.
  - destruct (Str.readlines s1) as [|l ls] eqn:Hl; [|done].
    apply readlines_nil_inv in Hl as ->. unfold complete_lines in Hc.
    simpl in Hc. by apply bool_decide_eq_true in Hc.
Qed.

(** Every content is a run of terminated lines followed by a last line
    without line feed, which may be empty. *)
Lemma last_line_split (s : string) :
  ∃ pre body,
    s = pre +:+ body ∧ complete_lines pre = true ∧ no_newline body = true.
Proof.
  induction s as [|c s (pre & body & -> & Hpre & Hbody)]; [by exists "", ""|].
  destruct (decide (c = Str.newline)) as [->|Hc].
  - exists (String Str.newline pre), body. split; [done|]. split; [|done].
    unfold complete_lines in *. simpl. by destruct pre.
  - destruct pre as [|d pre].
    + exists "", (String c body). split; [done|]. split; [done|]. simpl.
      by rewrite bool_decide_false.
    + exists (String c (String d pre)), body. by rewrite str_app_cons.
Qed.

(** A line holds no line feed but, possibly, its last character. *)
Lemma readlines_lines (s : string) :
  Forall (λ l, ∃ body, no_newline body = true ∧ (l = body +:+ LF ∨ l = body))
         (Str.readlines s).
Proof.
  induction s as [|c s IH]; [constructor|]. simpl. case_bool_decide as Hc.
  - constructor; [|done]. exists "". split; [done|]. left. by rewrite Hc.
  - destruct (Str.readlines s) as [|l ls].
    + repeat constructor. exists (Str.chr c). split; [|by right].
      simpl. by rewrite bool_decide_false.
    + inversion_clear IH as [|? ? (body & Hbody & Hl) Hls].
      constructor; [|done]. exists (String c body). split.
      * simpl. by rewrite bool_decide_false.
      * destruct Hl as [->| ->]; [left|right]; done.
Qed.

(** The lines of a list written one entry per line are its entries, each
    with the line end, when the line end closes with a line feed and
    neither it nor an entry holds another one. *)
Lemma readlines_join_lines (eol : string) (ls : list string) :
  no_newline eol = true →
  Forall (λ l, no_newline l = true) ls →
  Str.readlines (join_lines (eol +:+ LF) ls) = (λ l, l +:+ eol +:+ LF) <$> ls.
Proof.
  intros Heol. induction 1 as [|l ls Hl _ IH]; [done|].
  change (join_lines (eol +:+ LF) (l :: ls))
    with (l +:+ (eol +:+ LF) +:+ join_lines (eol +:+ LF) ls).
  rewrite (str_app_assoc eol LF), <-(str_app_assoc l eol).
  rewrite readlines_line, IH.
  - rewrite fmap_cons. by rewrite str_app_assoc.
  - by rewrite no_newline_app, Hl, Heol.
Qed.

End line_facts.

(** ** The loop of the requirements reader *)

Section loop_facts.

(** The loop's test is the spec's: a trimmed line is skipped when it is
    empty or starts with ['#']. *)
Lemma skip_test (trimmed : string) :
  Str.is_empty trimmed || Str.startswith trimmed "#" = negb (kept trimmed).
Proof.
  destruct trimmed as [|c r]; [done|]. simpl. unfold Str.hash.
  rewrite andb_true_r, negb_involutive. apply bool_decide_ext. naive_solver.
Qed.

Lemma step_kept (reqs : list string) (line : string) :
  kept (Str.strip line) = true →
  _requirements_step reqs line = reqs ++ [Str.strip line].
Proof. intros H. unfold _requirements_step. by rewrite skip_test, H. Qed.

Lemma step_skipped (reqs : list string) (line : string) :
  kept (Str.strip line) = false → _requirements_step reqs line = reqs.
Proof. intros H. unfold _requirements_step. by rewrite skip_test, H. Qed.

(** The loop appends to what it is given the kept lines, in order. *)
Lemma loop_filter (lines reqs : list string) :
  foldl _requirements_step reqs lines
  = reqs ++ filter (λ l, kept l = true) (Str.strip <$> lines).
Proof.
  revert reqs. induction lines as [|line lines IH]; intros reqs; simpl.
  - by rewrite app_nil_r.
  - rewrite IH. destruct (kept (Str.strip line)) eqn:Hk.
    + rewrite step_kept by done. rewrite filter_cons_True by done.
      by rewrite <-app_assoc.
    + rewrite step_skipped by done. rewrite filter_cons_False; [done|].
      by rewrite Hk.
Qed.

Lemma loop_app (before after reqs : list string) :
  foldl _requirements_step reqs (before ++ after)
  = foldl _requirements_step reqs before ++ foldl _requirements_step [] after.
Proof.
  rewrite foldl_app, (loop_filter after), (loop_filter after []). done.
Qed.

(** What the loop keeps is a well-formed specifier. *)
Lemma kept_specifier (line : string) :
  kept (Str.strip line) = true → specifier (Str.strip line).
Proof.
  intros Hk. split; [|split].
  - by destruct (Str.strip line).
  - intros c r' E. split; [by eapply strip_head|].
    rewrite E in Hk. simpl in Hk. apply negb_true_iff in Hk.
    by apply bool_decide_eq_false in Hk.
  - intros r' c E. by eapply strip_last.
Qed.

End loop_facts.

(** ** The spec's relations and the code's functions *)

Section spec_facts.

(** The lines the file object iterates over are the lines of the content. *)
Lemma is_lines_readlines (s : string) : is_lines s (Str.readlines s).
Proof.
  induction s as [|c s IH]; [constructor|]. simpl. case_bool_decide as Hc.
  - subst c. by apply (is_lines_cons "" s).
  - assert (no_newline (Str.chr c) = true) as Hchr.
    { simpl. by rewrite bool_decide_false. }
    remember (Str.readlines s) as ls eqn:Hls.
    destruct IH as [|body Hbody Hne|body rest ls Hbody Hrest].
    + by constructor.
    + constructor; [|done]. simpl. by rewrite bool_decide_false.
    + apply (is_lines_cons (String c body) rest ls); [|done].
      simpl. by rewrite bool_decide_false.
Qed.

(** A content has the lines the file object iterates over, and no others. *)
Lemma is_lines_inv (s : string) (ls : list string) :
  is_lines s ls → ls = Str.readlines s.
Proof.
  induction 1 as [|body Hbody Hne|body rest ls Hbody _ IH].
  - done.
  - by rewrite readlines_last.
  - by rewrite readlines_line, IH.
Qed.

Lemma is_lines_functional (s : string) (ls1 ls2 : list string) :
  is_lines s ls1 → is_lines s ls2 → ls1 = ls2.
Proof. intros ->%is_lines_inv ->%is_lines_inv. done. Qed.

(** [strip] trims. *)
Lemma trimmed_of_strip (line : string) : trimmed_of line (Str.strip line).
Proof.
  destruct (strip_split line) as (pre & post & E & Hpre & Hpost).
  exists pre, post. repeat split; [done..| |].
  - intros c r. apply strip_head.
  - intros r c. apply strip_last.
Qed.

(** A line has one trimmed text, the one [strip] returns. *)
Lemma trimmed_of_inv (line t : string) :
  trimmed_of line t → t = Str.strip line.
Proof.
  intros (pre & post & -> & Hpre & Hpost & Hhead & Hlast).
  rewrite <-str_app_assoc, strip_app_space by done.
  unfold Str.strip. rewrite lstrip_app, Hpre.
  assert (Str.lstrip t = t) as ->.
  { destruct t as [|c r]; [done|]. simpl. by rewrite (Hhead c r). }
  symmetry. by apply rstrip_fixed.
Qed.

Lemma trimmed_of_functional (line t1 t2 : string) :
  trimmed_of line t1 → trimmed_of line t2 → t1 = t2.
Proof. intros ->%trimmed_of_inv ->%trimmed_of_inv. done. Qed.

(** The loop does to the lines what the spec says. *)
Lemma reads_as_loop (lines : list string) :
  reads_as lines (foldl _requirements_step [] lines).
Proof.
  rewrite loop_filter, app_nil_l.
  induction lines as [|line lines IH]; [constructor|]. rewrite fmap_cons.
  destruct (kept (Str.strip line)) eqn:Hk.
  - rewrite filter_cons_True by done.
    apply reads_keep; [apply trimmed_of_strip|done..].
  - rewrite filter_cons_False by (by rewrite Hk).
    eapply reads_skip; [apply trimmed_of_strip|done..].
Qed.

(** The spec leaves no choice: lines are read as one list only. *)
Lemma reads_as_functional (lines reqs1 reqs2 : list string) :
  reads_as lines reqs1 → reads_as lines reqs2 → reqs1 = reqs2.
Proof.
  intros H1. revert reqs2.
  induction H1 as [|line t lines reqs Ht Hk _ IH|line t lines reqs Ht Hk _ IH];
    intros reqs2 H2; inversion H2 as [|? t' ? ? Ht' Hk'|? t' ? ? Ht' Hk'];
    subst; try done;
    pose proof (trimmed_of_functional _ _ _ Ht Ht') as <-;
    [by apply IH|congruence|congruence|f_equal; by apply IH].
Qed.

End spec_facts.

(** ** Runs of the readers and of the descriptor *)

Section run_facts.

Context (file__ : string) (fs : gmap string file).

Let req := _path file__ "requirements.txt".
Let readme := _path file__ "README.rst".

Lemma _requirements_run (t : list event) :
  _requirements file__ fs t =
    match fs !! req with
    | None => (t ++ [EOpen req], inl (IOError (Some req)))
    | Some Unreadable =>
        (t ++ [EOpen req; ERead req; EClose req], inl (IOError None))
    | Some (Content data) =>
        (t ++ [EOpen req; ERead req; EClose req],
         inr (foldl _requirements_step [] (Str.readlines data)))
    end.
Proof.
  unfold _requirements. io_unfold. fold req.
  destruct (fs !! req) as [[data|]|]; [| |done]; cbn; by rewrite <-!app_assoc.
Qed.

Lemma _long_description_run (t : list event) :
  _long_description file__ fs t =
    match fs !! readme with
    | None => (t ++ [EOpen readme], inl (IOError (Some readme)))
    | Some Unreadable =>
        (t ++ [EOpen readme; ERead readme; EClose readme],
         inl (IOError None))
    | Some (Content data) =>
        (t ++ [EOpen readme; ERead readme; EClose readme], inr data)
    end.
Proof.
  unfold _long_description. io_unfold. fold readme.
  destruct (fs !! readme) as [[data|]|]; [| |done]; cbn;
    by rewrite <-!app_assoc.
Qed.

End run_facts.

Section main_facts.

Context (file__ : string) (fs : gmap string file).

Let req := _path file__ "requirements.txt".
Let readme := _path file__ "README.rst".

(** The three events of a [with open] block on [path] whose body reads. *)
Let block (path : string) : list event :=
  [EOpen path; ERead path; EClose path].

Lemma main_run :
  run (main file__) fs =
    match fs !! req with
    | None => ([EOpen req], inl (IOError (Some req)))
    | Some Unreadable => (block req, inl (IOError None))
    | Some (Content reqs) =>
        match fs !! readme with
        | None =>
            (block req ++ [EOpen readme], inl (IOError (Some readme)))
        | Some Unreadable => (block req ++ block readme, inl (IOError None))
        | Some (Content text) =>
            (block req ++ block readme ++
               [ESetup (setup_kwargs file__
                          (foldl _requirements_step [] (Str.readlines reqs))
                          text)],
             inr tt)
        end
    end.
Proof.
  unfold run, main, mbind, IO_bind, bind.
  rewrite _requirements_run. fold req.
  destruct (fs !! req) as [[reqs|]|]; [|done..].
  rewrite _long_description_run. fold readme.
  destruct (fs !! readme) as [[text|]|]; done.
Qed.

End main_facts.

(** ** Logs *)

(** An event that occurs once in a log splits it in one way only. *)
Lemma split_unique {A} (x : A) (pre post t1 t2 : list A) :
  x ∉ pre → x ∉ post →
  pre ++ x :: post = t1 ++ x :: t2 → t1 = pre ∧ t2 = post.
Proof.
  revert t1. induction pre as [|a pre IH]; intros [|b t1] Hpre Hpost E;
    simplify_eq/=.
  - done.
  - destruct Hpost. apply elem_of_app. right. apply list_elem_of_here.
  - destruct Hpre. apply list_elem_of_here.
  - apply not_elem_of_cons in Hpre as [_ Hpre].
    destruct (IH t1 Hpre Hpost) as [-> ->]; done.
Qed.

(** ** Paths next to the descriptor *)

Section path_facts.

Lemma join_relative (dir fn : string) :
  Str.startswith fn "/" = false →
  posixpath.join dir fn = dir +:+ dir_sep dir +:+ fn.
Proof.
  intros H. unfold posixpath.join, dir_sep. rewrite H.
  by destruct (Str.is_empty dir || Str.endswith_chr dir Str.slash).
Qed.

Lemma _path_relative (file__ fn : string) :
  Str.startswith fn "/" = false →
  _path file__ fn
  = posixpath.dirname file__ +:+ dir_sep (posixpath.dirname file__) +:+ fn.
Proof. apply join_relative. Qed.

(** The two files the descriptor reads are different files. *)
Lemma req_readme_ne (file__ : string) :
  _path file__ "requirements.txt" ≠ _path file__ "README.rst".
Proof.
  rewrite !_path_relative by done. intros H.
  by do 2 apply (inj (String.app _)) in H.
Qed.

End path_facts.

(** ** The requirements reader *)

(** C1: whatever the requirements file holds, the reader goes through it
    line by line and returns exactly the lines that, once stripped of
    leading and trailing white space, are not empty and do not begin with
    ['#'], each in its trimmed form and in the order of the file.  The
    lines, the trimming and the selection are those of [is_lines],
    [trimmed_of] and [reads_as], which leave one result only. *)
Theorem C1_requirements_are_kept_lines (file__ : string)
    (fs : gmap string file) (content : string) :
  fs !! _path file__ "requirements.txt" = Some (Content content) →
  ∃ lines reqs,
    is_lines content lines
    ∧ reads_as lines reqs
    ∧ (run (_requirements file__) fs).2 = inr reqs.
Proof.
  intros Hfs. exists (Str.readlines content). eexists.
  split; [apply is_lines_readlines|]. split; [apply reads_as_loop|].
  unfold run. by rewrite _requirements_run, Hfs.
Qed.

Lemma C1_witness :
  sample_tree !! _path "setup.py" "requirements.txt"
    = Some (Content sample_requirements)
  ∧ ∃ lines reqs,
      is_lines sample_requirements lines
      ∧ reads_as lines reqs
      ∧ (run (_requirements "setup.py") sample_tree).2 = inr reqs.
Proof.
  split; [reflexivity|].
  apply (C1_requirements_are_kept_lines "setup.py" sample_tree). reflexivity.
Defined.

(** C2: a line whose first character other than white space is not ['#'] is
    kept whole in its trimmed form, as one specifier, whatever ['#'] it holds
    further on; a line that has such a first character is skipped only when
    that character is ['#']. *)
Theorem C2_no_inline_comment (file__ : string) (fs : gmap string file)
    (content : string) (before after : list string) (line : string)
    (c : ascii) :
  fs !! _path file__ "requirements.txt" = Some (Content content) →
  Str.readlines content = before ++ line :: after →
  first_nonspace line = Some c →
  (run (_requirements file__) fs).2
  = inr (foldl _requirements_step [] before
         ++ (if bool_decide (c = "#"%char) then [] else [Str.strip line])
         ++ foldl _requirements_step [] after).
Proof.
  intros Hfs Hlines Hline. unfold run.
  rewrite _requirements_run, Hfs. simpl. f_equal.
  rewrite Hlines, loop_app. f_equal. simpl.
  rewrite (loop_filter after), (loop_filter after []). simpl.
  rewrite strip_first_nonspace in Hline.
  destruct (Str.strip line) as [|c' rest] eqn:Hstrip; [done|].
  injection Hline as ->. rewrite <-Hstrip. case_bool_decide as Hc.
  - rewrite step_skipped; [done|]. rewrite Hstrip. simpl.
    by rewrite bool_decide_true.
  - rewrite step_kept; [done|]. rewrite Hstrip. simpl.
    by rewrite bool_decide_false.
Qed.

Lemma C2_witness :
  pinned_tree !! _path "setup.py" "requirements.txt"
    = Some (Content pinned_requirements)
  ∧ Str.readlines pinned_requirements
    = ["urwid" +:+ LF] ++ ("pkg==1.0  # pinned" +:+ LF) :: ["# end" +:+ LF]
  ∧ first_nonspace ("pkg==1.0  # pinned" +:+ LF) = Some "p"%char
  ∧ (run (_requirements "setup.py") pinned_tree).2
    = inr ["urwid"; "pkg==1.0  # pinned"].
Proof.
  split; [reflexivity|]. split; [reflexivity|]. split; [reflexivity|].
  exact (C2_no_inline_comment "setup.py" pinned_tree pinned_requirements
           ["urwid" +:+ LF] ["# end" +:+ LF] ("pkg==1.0  # pinned" +:+ LF)
           "p" eq_refl eq_refl eq_refl).
Defined.

(** C3: for the file made of an empty line, the line [# comment], a line of
    two spaces, the line [requests>=2.0] and the line [urwid], each ended by
    a line feed, the reader returns [requests>=2.0] and [urwid], in that
    order and nothing else. *)
Theorem C3_scenario (file__ : string) (fs : gmap string file) :
  fs !! _path file__ "requirements.txt" = Some (Content sample_requirements) →
  (run (_requirements file__) fs).2 = inr ["requests>=2.0"; "urwid"].
Proof.
  intros Hfs. unfold run. by rewrite _requirements_run, Hfs.
Qed.

Lemma C3_witness :
  sample_tree !! _path "setup.py" "requirements.txt"
    = Some (Content sample_requirements)
  ∧ (run (_requirements "setup.py") sample_tree).2
    = inr ["requests>=2.0"; "urwid"].
Proof.
  split; [reflexivity|]. apply (C3_scenario "setup.py" sample_tree). reflexivity.
Defined.

(** C6: a requirements file that exists and is empty makes the reader
    return the empty list, not fail. *)
Theorem C6_empty_requirements (file__ : string) (fs : gmap string file) :
  fs !! _path file__ "requirements.txt" = Some (Content "") →
  (run (_requirements file__) fs).2 = inr [].
Proof.
  intros Hfs. unfold run. by rewrite _requirements_run, Hfs.
Qed.

Lemma C6_witness :
  empty_files_tree !! _path "/src/setup.py" "requirements.txt"
    = Some (Content "")
  ∧ (run (_requirements "/src/setup.py") empty_files_tree).2 = inr [].
Proof.
  split; [reflexivity|].
  apply (C6_empty_requirements "/src/setup.py" empty_files_tree). reflexivity.
Defined.

(** C9: whatever the requirements file holds, the reader returns a list
    whose every element is a non-empty string, without white space at
    either end, whose first character is not ['#']. *)
Theorem C9_specifiers_well_formed (file__ : string) (fs : gmap string file)
    (content : string) :
  fs !! _path file__ "requirements.txt" = Some (Content content) →
  ∃ reqs, (run (_requirements file__) fs).2 = inr reqs ∧ Forall specifier reqs.
Proof.
  intros Hfs. exists (spec_requirements content). split.
  - unfold run. rewrite _requirements_run, Hfs. simpl. by rewrite loop_filter.
  - apply Forall_forall. intros r Hr. unfold spec_requirements in Hr.
    apply list_elem_of_filter in Hr as [Hk Hr].
    apply list_elem_of_fmap in Hr as (line & -> & _). by apply kept_specifier.
Qed.

Lemma C9_witness :
  pinned_tree !! _path "setup.py" "requirements.txt"
    = Some (Content pinned_requirements)
  ∧ ∃ reqs, (run (_requirements "setup.py") pinned_tree).2 = inr reqs
            ∧ Forall specifier reqs.
Proof.
  split; [reflexivity|].
  apply (C9_specifiers_well_formed "setup.py" pinned_tree pinned_requirements).
  reflexivity.
Defined.

(** ** The description loader *)

(** C4: whatever the description file holds, the loader returns those bytes
    as they are, nothing trimmed and nothing recoded: [Hello], line feed,
    [World], line feed comes back as such, and an empty file gives the empty
    string without error. *)
Theorem C4_description_verbatim (file__ : string) (fs : gmap string file)
    (content : string) :
  fs !! _path file__ "README.rst" = Some (Content content) →
  (run (_long_description file__) fs).2 = inr content.
Proof.
  intros Hfs. unfold run. by rewrite _long_description_run, Hfs.
Qed.

Lemma C4_witness :
  (sample_tree !! _path "setup.py" "README.rst"
     = Some (Content ("Hello" +:+ LF +:+ "World" +:+ LF))
   ∧ (run (_long_description "setup.py") sample_tree).2
     = inr ("Hello" +:+ LF +:+ "World" +:+ LF))
  ∧ (empty_files_tree !! _path "/src/setup.py" "README.rst" = Some (Content "")
     ∧ (run (_long_description "/src/setup.py") empty_files_tree).2 = inr "").
Proof.
  split; (split; [reflexivity|]).
  - apply (C4_description_verbatim "setup.py" sample_tree). reflexivity.
  - apply (C4_description_verbatim "/src/setup.py" empty_files_tree).
    reflexivity.
Defined.

(** ** The assembly *)

Section assembly.

Context (file__ : string) (fs : gmap string file).

Let req := _path file__ "requirements.txt".
Let readme := _path file__ "README.rst".

(** C5: when the requirements file or the description file cannot be
    opened or read, the run ends with the file-access exception [IOError],
    which names no file but one of the two that cannot be opened, and
    [setup] is never called, so that no manifest, not even a partial one,
    comes out; when both can be read, the run ends well and exactly one
    manifest comes out, whose dependency list is what the spec makes of the
    lines of the requirements file and whose long description is the
    content of the description file. *)
Theorem C5_all_or_nothing :
  (readable fs req = false ∨ readable fs readme = false →
     ∃ filename,
       (run (main file__) fs).2 = inl (IOError filename)
       ∧ (∀ path, filename = Some path →
            (path = req ∨ path = readme) ∧ fs !! path = None)
       ∧ produced (run (main file__) fs).1 = [])
  ∧ (readable fs req = true → readable fs readme = true →
     ∃ reqs text lines m,
       fs !! req = Some (Content reqs)
       ∧ fs !! readme = Some (Content text)
       ∧ (run (main file__) fs).2 = inr tt
       ∧ produced (run (main file__) fs).1 = [m]
       ∧ is_lines reqs lines
       ∧ reads_as lines (install_requires m)
       ∧ long_description m = text).
Proof.
  rewrite main_run. fold req readme. unfold readable.
  destruct (fs !! req) as [[reqs|]|] eqn:Hreq;
    [destruct (fs !! readme) as [[text|]|] eqn:Hreadme|..].
  - split; [by intros [?|?]|]. intros _ _.
    exists reqs, text, (Str.readlines reqs). eexists.
    split; [done|]. split; [done|]. split; [done|]. split; [done|].
    split; [apply is_lines_readlines|]. split; [apply reads_as_loop|done].
  - split; [|done]. intros _. exists None. by repeat split.
  - split; [|done]. intros _. exists (Some readme).
    split; [done|]. split; [|done]. intros path [= <-]. auto.
  - split; [|done]. intros _. exists None. by repeat split.
  - split; [|done]. intros _. exists (Some req).
    split; [done|]. split; [|done]. intros path [= <-]. auto.
Qed.

(** C8: the manifest of a run that ends well has the name [gerrit-view],
    the version [0.1], the license [ASL 2.0] and the keywords
    [gerrit curses urwid console], and its scripts are exactly [cgerrit]
    and [qgerrit] of the directory [scripts] in the directory of the
    descriptor. *)
Theorem C8_fixed_identity :
  (run (main file__) fs).2 = inr tt →
  ∃ m, produced (run (main file__) fs).1 = [m]
       ∧ name m = "gerrit-view"
       ∧ version m = "0.1"
       ∧ license m = "ASL 2.0"
       ∧ keywords m = "gerrit curses urwid console"
       ∧ scripts m =
           let dir := posixpath.dirname file__ in
           [dir +:+ dir_sep dir +:+ "scripts/cgerrit";
            dir +:+ dir_sep dir +:+ "scripts/qgerrit"].
Proof.
  rewrite main_run. fold req readme.
  destruct (fs !! req) as [[reqs|]|]; [|done..].
  destruct (fs !! readme) as [[text|]|]; [|done..].
  intros _. eexists. split; [reflexivity|]. repeat split.
  simpl. by rewrite <-!_path_relative.
Qed.

(** C10: the requirements file is opened, read and released before the
    description file is opened; when the requirements file cannot be
    opened or read, nothing is ever done to the description file. *)
Theorem C10_requirements_first :
  (readable fs req = false → readme ∉ touched (run (main file__) fs).1)
  ∧ (∀ t1 t2,
       (run (main file__) fs).1 = t1 ++ EOpen readme :: t2 →
       t1 = [EOpen req; ERead req; EClose req]
       ∧ readable fs req = true
       ∧ req ∉ touched t2).
Proof.
  pose proof (req_readme_ne file__) as Hne. fold req readme in Hne.
  assert (EOpen readme ∉ [EOpen req; ERead req; EClose req]) as Hblock.
  { not_in_list. }
  rewrite main_run. fold req readme. unfold readable.
  destruct (fs !! req) as [[reqs|]|] eqn:Hreq.
  - split; [done|]. intros t1 t2 Ht. cut (
      t1 = [EOpen req; ERead req; EClose req] ∧ req ∉ touched t2); [tauto|].
    destruct (fs !! readme) as [[text|]|]; simpl in Ht;
      apply (split_unique _ [EOpen req; ERead req; EClose req]) in Ht
        as [-> ->];
      first [ done | split; [done|simpl; not_in_list] | not_in_list ].
  - split.
    + intros _. simpl. not_in_list.
    + intros t1 t2 Ht. destruct Hblock. simpl in Ht. rewrite Ht.
      apply elem_of_app. right. apply list_elem_of_here.
  - split.
    + intros _. simpl. not_in_list.
    + intros t1 t2 Ht. simpl in Ht.
      assert (EOpen readme ∉ [EOpen req]) as Hopen by not_in_list.
      destruct Hopen. rewrite Ht.
      apply elem_of_app. right. apply list_elem_of_here.
Qed.

End assembly.

Lemma C5_witness :
  (readable no_requirements_tree (_path "setup.py" "requirements.txt") = false
   ∧ ∃ filename,
       (run (main "setup.py") no_requirements_tree).2 = inl (IOError filename)
       ∧ (∀ path, filename = Some path →
            (path = _path "setup.py" "requirements.txt"
             ∨ path = _path "setup.py" "README.rst")
            ∧ no_requirements_tree !! path = None)
       ∧ produced (run (main "setup.py") no_requirements_tree).1 = [])
  ∧ (readable sample_tree (_path "setup.py" "requirements.txt") = true
     ∧ readable sample_tree (_path "setup.py" "README.rst") = true
     ∧ ∃ reqs text lines m,
         sample_tree !! _path "setup.py" "requirements.txt"
           = Some (Content reqs)
         ∧ sample_tree !! _path "setup.py" "README.rst" = Some (Content text)
         ∧ (run (main "setup.py") sample_tree).2 = inr tt
         ∧ produced (run (main "setup.py") sample_tree).1 = [m]
         ∧ is_lines reqs lines
         ∧ reads_as lines (install_requires m)
         ∧ long_description m = text).
Proof.
  split.
  - split; [reflexivity|].
    exact (proj1 (C5_all_or_nothing "setup.py" no_requirements_tree)
             (or_introl eq_refl)).
  - split; [reflexivity|]. split; [reflexivity|].
    exact (proj2 (C5_all_or_nothing "setup.py" sample_tree) eq_refl eq_refl).
Defined.

Lemma C8_witness :
  (run (main "/src/setup.py") empty_files_tree).2 = inr tt
  ∧ ∃ m, produced (run (main "/src/setup.py") empty_files_tree).1 = [m]
         ∧ name m = "gerrit-view"
         ∧ version m = "0.1"
         ∧ license m = "ASL 2.0"
         ∧ keywords m = "gerrit curses urwid console"
         ∧ scripts m = ["/src/scripts/cgerrit"; "/src/scripts/qgerrit"].
Proof.
  split; [reflexivity|].
  exact (C8_fixed_identity "/src/setup.py" empty_files_tree eq_refl).
Defined.

Lemma C10_witness :
  readable no_requirements_tree (_path "setup.py" "requirements.txt") = false
  ∧ _path "setup.py" "README.rst"
    ∉ touched (run (main "setup.py") no_requirements_tree).1.
Proof.
  split; [reflexivity|].
  exact (proj1 (C10_requirements_first "setup.py" no_requirements_tree)
           eq_refl).
Defined.

(** ** Determinism *)

(** C7, as stated, fails: started as [setup.py] and as [./setup.py] in one
    and the same tree, hence on the same two files, the descriptor hands
    [setup] two manifests with different script paths. *)
Lemma C7_counterexample :
  sample_tree !! _path "setup.py" "requirements.txt"
    = sample_tree !! _path "./setup.py" "requirements.txt"
  ∧ sample_tree !! _path "setup.py" "README.rst"
    = sample_tree !! _path "./setup.py" "README.rst"
  ∧ ∃ m1 m2,
      produced (run (main "setup.py") sample_tree).1 = [m1]
      ∧ produced (run (main "./setup.py") sample_tree).1 = [m2]
      ∧ scripts m1 = ["scripts/cgerrit"; "scripts/qgerrit"]
      ∧ scripts m2 = ["./scripts/cgerrit"; "./scripts/qgerrit"]
      ∧ m1 ≠ m2.
Proof.
  split; [reflexivity|]. split; [reflexivity|].
  eexists _, _. split; [reflexivity|]. split; [reflexivity|].
  split; [reflexivity|]. split; [reflexivity|].
  intros E. apply (f_equal scripts) in E. discriminate E.
Qed.

(** C7, amended: two runs started under the same descriptor path, on stores
    that hold the same thing for the requirements file and for the
    description file, are the same run, with the same manifest in every
    field; when the descriptor paths differ, the manifests still agree in
    every field other than the script paths. *)
Theorem C7_deterministic (file1 file2 : string) (fs1 fs2 : gmap string file) :
  fs1 !! _path file1 "requirements.txt" = fs2 !! _path file2 "requirements.txt" →
  fs1 !! _path file1 "README.rst" = fs2 !! _path file2 "README.rst" →
  (file1 = file2 → run (main file1) fs1 = run (main file2) fs2)
  ∧ (∀ m1 m2,
       m1 ∈ produced (run (main file1) fs1).1 →
       m2 ∈ produced (run (main file2) fs2).1 →
       agree_outside_scripts m1 m2).
Proof.
  intros Hreq Hreadme. rewrite !main_run. split.
  - intros <-. by rewrite Hreq, Hreadme.
  - intros m1 m2. rewrite Hreq, Hreadme.
    destruct (fs2 !! _path file2 "requirements.txt") as [[reqs|]|];
      [|by intros []%elem_of_nil..].
    destruct (fs2 !! _path file2 "README.rst") as [[text|]|];
      [|by intros []%elem_of_nil..].
    simpl. intros ->%list_elem_of_singleton ->%list_elem_of_singleton.
    by repeat split.
Qed.

Lemma C7_witness :
  sample_tree !! _path "setup.py" "requirements.txt"
    = sample_tree !! _path "./setup.py" "requirements.txt"
  ∧ sample_tree !! _path "setup.py" "README.rst"
    = sample_tree !! _path "./setup.py" "README.rst"
  ∧ ∀ m1 m2,
      m1 ∈ produced (run (main "setup.py") sample_tree).1 →
      m2 ∈ produced (run (main "./setup.py") sample_tree).1 →
      agree_outside_scripts m1 m2.
Proof.
  split; [reflexivity|]. split; [reflexivity|].
  exact (proj2 (C7_deterministic "setup.py" "./setup.py" sample_tree sample_tree
                  eq_refl eq_refl)).
Defined.

(** * Further properties *)

(** ** More on the requirements reader *)

Section reader_facts.

(** The list the reader returns for a file that reads. *)
Lemma reader_result (file__ : string) (fs : gmap string file)
    (content : string) :
  fs !! _path file__ "requirements.txt" = Some (Content content) →
  (run (_requirements file__) fs).2
  = inr (foldl _requirements_step [] (Str.readlines content)).
Proof. intros Hfs. unfold run. by rewrite _requirements_run, Hfs. Qed.

(** A run of the reader that returns a list has read a file. *)
Lemma reader_result_inv (file__ : string) (fs : gmap string file)
    (reqs : list string) :
  (run (_requirements file__) fs).2 = inr reqs →
  ∃ content,
    fs !! _path file__ "requirements.txt" = Some (Content content)
    ∧ reqs = foldl _requirements_step [] (Str.readlines content).
Proof.
  unfold run. rewrite _requirements_run.
  destruct (fs !! _path file__ "requirements.txt") as [[content|]|];
    [|done..].
  intros [= <-]. by exists content.
Qed.

(** Each entry of the list the loop builds is the stripped text of one of
    the lines, and passes the test. *)
Lemma loop_elem (lines : list string) (r : string) :
  r ∈ foldl _requirements_step [] lines →
  ∃ line, line ∈ lines ∧ r = Str.strip line ∧ kept r = true.
Proof.
  rewrite loop_filter, app_nil_l.
  intros [Hk (line & -> & Hline)%list_elem_of_fmap]%list_elem_of_filter.
  by exists line.
Qed.

Lemma strip_line_no_newline (s line : string) :
  line ∈ Str.readlines s → no_newline (Str.strip line) = true.
Proof.
  intros Hline. pose proof (readlines_lines s) as Hall.
  rewrite Forall_forall in Hall.
  destruct (Hall line Hline) as (body & Hbody & Hl).
  assert (Str.strip line = Str.strip body) as ->.
  { destruct Hl as [->| ->]; [|done]. by apply strip_app_space. }
  destruct (strip_split body) as (pre & post & E & _ & _).
  rewrite E, !no_newline_app in Hbody.
  by apply andb_prop in Hbody as [_ [? _]%andb_prop].
Qed.

(** A line feed more at the end of the file changes nothing. *)
Lemma loop_trailing_newline (s : string) :
  foldl _requirements_step [] (Str.readlines (s +:+ LF))
  = foldl _requirements_step [] (Str.readlines s).
Proof.
  destruct (last_line_split s) as (pre & body & -> & Hpre & Hbody).
  rewrite str_app_assoc.
  rewrite (readlines_app pre body), (readlines_app pre (body +:+ LF)) by done.
  rewrite !loop_app. f_equal.
  rewrite <-(str_app_nil_r LF), readlines_line by done.
  destruct body as [|c body]; [reflexivity|].
  rewrite (readlines_last (String c body)) by done. simpl. unfold _requirements_step.
  by rewrite strip_app_space.
Qed.

(** The list written back, one entry per line, reads as itself. *)
Lemma loop_join_lines (eol : string) (reqs : list string) :
  no_newline eol = true → all_space eol = true →
  Forall specifier reqs →
  Forall (λ r, no_newline r = true) reqs →
  foldl _requirements_step [] (Str.readlines (join_lines (eol +:+ LF) reqs))
  = reqs.
Proof.
  intros Heol Hsp Hspec Hnl. rewrite readlines_join_lines by done.
  rewrite loop_filter, app_nil_l. clear Hnl.
  induction Hspec as [|r reqs Hr _ IH]; [done|]. rewrite !fmap_cons.
  destruct (strip_specifier r Hr) as [Hstrip Hkept].
  assert (Str.strip (r +:+ eol +:+ LF) = r) as ->.
  { rewrite strip_app_space; [done|]. by rewrite all_space_app, Hsp. }
  rewrite filter_cons_True by done. by rewrite IH.
Qed.

End reader_facts.

(** X1: what the reader returns is, entry by entry, a line of the file
    without the white space at its two ends: nothing inside a line is
    changed, dropped or added. *)
Theorem X1_entries_are_trimmed_lines (file__ : string)
    (fs : gmap string file) (content : string) :
  fs !! _path file__ "requirements.txt" = Some (Content content) →
  ∃ reqs,
    (run (_requirements file__) fs).2 = inr reqs
    ∧ Forall (λ r, ∃ line pre post,
                line ∈ Str.readlines content
                ∧ line = pre +:+ r +:+ post
                ∧ all_space pre = true ∧ all_space post = true) reqs.
Proof.
  intros Hfs. eexists. split; [by apply reader_result|].
  apply Forall_forall. intros r (line & Hline & -> & _)%loop_elem.
  destruct (strip_split line) as (pre & post & E & Hpre & Hpost).
  by exists line, pre, post.
Qed.

Lemma X1_witness :
  pinned_tree !! _path "setup.py" "requirements.txt"
    = Some (Content pinned_requirements)
  ∧ ∃ reqs,
      (run (_requirements "setup.py") pinned_tree).2 = inr reqs
      ∧ Forall (λ r, ∃ line pre post,
                  line ∈ Str.readlines pinned_requirements
                  ∧ line = pre +:+ r +:+ post
                  ∧ all_space pre = true ∧ all_space post = true) reqs.
Proof.
  split; [reflexivity|].
  exact (X1_entries_are_trimmed_lines "setup.py" pinned_tree
           pinned_requirements eq_refl).
Defined.

(** X2: whether the last line of the requirements file ends with a line
    feed or not makes no difference to the list read. *)
Theorem X2_trailing_newline (file1 file2 : string)
    (fs1 fs2 : gmap string file) (content : string) :
  fs1 !! _path file1 "requirements.txt" = Some (Content content) →
  fs2 !! _path file2 "requirements.txt" = Some (Content (content +:+ LF)) →
  (run (_requirements file2) fs2).2 = (run (_requirements file1) fs1).2.
Proof.
  intros H1 H2. rewrite (reader_result _ _ _ H1), (reader_result _ _ _ H2).
  by rewrite loop_trailing_newline.
Qed.

Lemma X2_witness :
  unterminated_tree !! _path "setup.py" "requirements.txt"
    = Some (Content ("# deps" +:+ LF +:+ " urwid"))
  ∧ terminated_tree !! _path "setup.py" "requirements.txt"
    = Some (Content (("# deps" +:+ LF +:+ " urwid") +:+ LF))
  ∧ (run (_requirements "setup.py") terminated_tree).2
    = (run (_requirements "setup.py") unterminated_tree).2.
Proof.
  split; [reflexivity|]. split; [reflexivity|].
  exact (X2_trailing_newline "setup.py" "setup.py" unterminated_tree
           terminated_tree ("# deps" +:+ LF +:+ " urwid") eq_refl eq_refl).
Defined.

(** X3: the list read from two requirements files put one after the other,
    the first one empty or ended by a line feed, is the list of the first
    followed by the list of the second: nothing is merged, reordered or
    deduplicated. *)
Theorem X3_concatenation (file1 file2 file__ : string)
    (fs1 fs2 fs : gmap string file) (content1 content2 : string) :
  complete_lines content1 = true →
  fs1 !! _path file1 "requirements.txt" = Some (Content content1) →
  fs2 !! _path file2 "requirements.txt" = Some (Content content2) →
  fs !! _path file__ "requirements.txt"
    = Some (Content (content1 +:+ content2)) →
  ∃ reqs1 reqs2,
    (run (_requirements file1) fs1).2 = inr reqs1
    ∧ (run (_requirements file2) fs2).2 = inr reqs2
    ∧ (run (_requirements file__) fs).2 = inr (reqs1 ++ reqs2).
Proof.
  intros Hc H1 H2 H. eexists _, _.
  split; [by apply reader_result|]. split; [by apply reader_result|].
  rewrite (reader_result _ _ _ H). by rewrite readlines_app, loop_app.
Qed.

Lemma X3_witness :
  complete_lines sample_requirements = true
  ∧ sample_tree !! _path "setup.py" "requirements.txt"
    = Some (Content sample_requirements)
  ∧ pinned_tree !! _path "setup.py" "requirements.txt"
    = Some (Content pinned_requirements)
  ∧ merged_tree !! _path "setup.py" "requirements.txt"
    = Some (Content (sample_requirements +:+ pinned_requirements))
  ∧ ∃ reqs1 reqs2,
      (run (_requirements "setup.py") sample_tree).2 = inr reqs1
      ∧ (run (_requirements "setup.py") pinned_tree).2 = inr reqs2
      ∧ (run (_requirements "setup.py") merged_tree).2 = inr (reqs1 ++ reqs2).
Proof.
  split; [reflexivity|]. split; [reflexivity|]. split; [reflexivity|].
  split; [reflexivity|].
  exact (X3_concatenation "setup.py" "setup.py" "setup.py" sample_tree
           pinned_tree merged_tree sample_requirements pinned_requirements
           eq_refl eq_refl eq_refl eq_refl).
Defined.

(** X4: a requirements file whose lines end with carriage return and line
    feed reads as the same file with lines ended by a line feed alone. *)
Theorem X4_crlf_line_ends (file1 file2 : string)
    (fs1 fs2 : gmap string file) (bodies : list string) :
  Forall (λ l, no_newline l = true) bodies →
  fs1 !! _path file1 "requirements.txt"
    = Some (Content (join_lines CRLF bodies)) →
  fs2 !! _path file2 "requirements.txt"
    = Some (Content (join_lines LF bodies)) →
  (run (_requirements file1) fs1).2 = (run (_requirements file2) fs2).2.
Proof.
  intros Hb H1 H2.
  rewrite (reader_result _ _ _ H1), (reader_result _ _ _ H2). f_equal.
  change CRLF with (Str.chr "013" +:+ LF).
  change (join_lines LF bodies) with (join_lines ("" +:+ LF) bodies).
  rewrite !readlines_join_lines by done. rewrite !loop_filter. f_equal.
  f_equal. rewrite <-!list_fmap_compose. apply list_fmap_ext.
  intros _ l _. simpl. by rewrite !strip_app_space.
Qed.

Lemma X4_witness :
  Forall (λ l, no_newline l = true) sample_bodies
  ∧ crlf_tree !! _path "setup.py" "requirements.txt"
    = Some (Content (join_lines CRLF sample_bodies))
  ∧ lf_tree !! _path "setup.py" "requirements.txt"
    = Some (Content (join_lines LF sample_bodies))
  ∧ (run (_requirements "setup.py") crlf_tree).2
    = (run (_requirements "setup.py") lf_tree).2.
Proof.
  assert (Forall (λ l, no_newline l = true) sample_bodies) as Hb.
  { repeat constructor. }
  split; [exact Hb|]. split; [reflexivity|]. split; [reflexivity|].
  exact (X4_crlf_line_ends "setup.py" "setup.py" crlf_tree lf_tree
           sample_bodies Hb eq_refl eq_refl).
Defined.

(** X5: a list of well-formed specifiers, none holding a line feed, written
    to the requirements file one per line, is read back as it is. *)
Theorem X5_write_then_read (file__ : string) (fs : gmap string file)
    (reqs : list string) :
  Forall specifier reqs →
  Forall (λ r, no_newline r = true) reqs →
  fs !! _path file__ "requirements.txt"
    = Some (Content (join_lines LF reqs)) →
  (run (_requirements file__) fs).2 = inr reqs.
Proof.
  intros Hspec Hnl Hfs. rewrite (reader_result _ _ _ Hfs). f_equal.
  change (join_lines LF reqs) with (join_lines ("" +:+ LF) reqs).
  by apply loop_join_lines.
Qed.

Lemma X5_witness :
  Forall specifier ["urwid"; "pkg==1.0  # pinned"]
  ∧ Forall (λ r, no_newline r = true) ["urwid"; "pkg==1.0  # pinned"]
  ∧ rewritten_tree !! _path "/tmp/setup.py" "requirements.txt"
    = Some (Content (join_lines LF ["urwid"; "pkg==1.0  # pinned"]))
  ∧ (run (_requirements "/tmp/setup.py") rewritten_tree).2
    = inr ["urwid"; "pkg==1.0  # pinned"].
Proof.
  assert (Forall specifier ["urwid"; "pkg==1.0  # pinned"]) as Hspec.
  { constructor; [|constructor; [|constructor]].
    - by apply (kept_specifier "urwid").
    - by apply (kept_specifier "pkg==1.0  # pinned"). }
  assert (Forall (λ r, no_newline r = true) ["urwid"; "pkg==1.0  # pinned"])
    as Hnl by repeat constructor.
  split; [exact Hspec|]. split; [exact Hnl|]. split; [reflexivity|].
  exact (X5_write_then_read "/tmp/setup.py" rewritten_tree
           ["urwid"; "pkg==1.0  # pinned"] Hspec Hnl eq_refl).
Defined.

(** X6: reading is idempotent: the list a run of the reader returned,
    written to a requirements file one entry per line, is read back as the
    same list. *)
Theorem X6_reading_is_idempotent (file1 file2 : string)
    (fs1 fs2 : gmap string file) (reqs : list string) :
  (run (_requirements file1) fs1).2 = inr reqs →
  fs2 !! _path file2 "requirements.txt"
    = Some (Content (join_lines LF reqs)) →
  (run (_requirements file2) fs2).2 = inr reqs.
Proof.
  intros (content & Hfs1 & ->)%reader_result_inv Hfs2.
  rewrite (reader_result _ _ _ Hfs2). f_equal.
  change LF with ("" +:+ LF). apply loop_join_lines; [done..| |].
  - apply Forall_forall. intros r (line & _ & -> & Hk)%loop_elem.
    by apply kept_specifier.
  - apply Forall_forall. intros r (line & Hline & -> & _)%loop_elem.
    by eapply strip_line_no_newline.
Qed.

Lemma X6_witness :
  (run (_requirements "setup.py") pinned_tree).2
    = inr ["urwid"; "pkg==1.0  # pinned"]
  ∧ rewritten_tree !! _path "/tmp/setup.py" "requirements.txt"
    = Some (Content (join_lines LF ["urwid"; "pkg==1.0  # pinned"]))
  ∧ (run (_requirements "/tmp/setup.py") rewritten_tree).2
    = inr ["urwid"; "pkg==1.0  # pinned"].
Proof.
  split; [reflexivity|]. split; [reflexivity|].
  exact (X6_reading_is_idempotent "setup.py" "/tmp/setup.py" pinned_tree
           rewritten_tree ["urwid"; "pkg==1.0  # pinned"] eq_refl eq_refl).
Defined.

(** ** More on paths *)

Section more_path_facts.

Lemma dirname_no_slash (p : string) :
  has_slash p = false → posixpath.dirname p = "".
Proof.
  intros H. unfold posixpath.dirname.
  assert (Str.after_last_slash p = 0) as ->; [|by destruct p].
  induction p as [|c p IH]; [done|]. simpl in *.
  apply orb_false_elim in H as [Hc Hp]. by rewrite IH, Hc.
Qed.

End more_path_facts.

(** X7: a name that starts with a slash is not looked up next to the
    descriptor: [_path] returns it as it is, whatever the descriptor's
    path. *)
Theorem X7_path_of_absolute_name (file__ fn : string) :
  Str.startswith fn "/" = true → _path file__ fn = fn.
Proof. intros H. unfold _path, posixpath.join. by rewrite H. Qed.

Lemma X7_witness :
  Str.startswith "/etc/requirements.txt" "/" = true
  ∧ _path "/src/setup.py" "/etc/requirements.txt" = "/etc/requirements.txt".
Proof.
  split; [reflexivity|].
  exact (X7_path_of_absolute_name "/src/setup.py" "/etc/requirements.txt"
           eq_refl).
Defined.

(** X8: a descriptor started under a path without directory part, as in
    [python setup.py], resolves every name to itself, that is against the
    current directory. *)
Theorem X8_path_of_bare_descriptor (file__ fn : string) :
  has_slash file__ = false → _path file__ fn = fn.
Proof.
  intros H. unfold _path. rewrite dirname_no_slash by done.
  unfold posixpath.join. by destruct (Str.startswith fn "/").
Qed.

Lemma X8_witness :
  has_slash "setup.py" = false
  ∧ _path "setup.py" "requirements.txt" = "requirements.txt".
Proof.
  split; [reflexivity|].
  exact (X8_path_of_bare_descriptor "setup.py" "requirements.txt" eq_refl).
Defined.

(** X9: two different names that do not start with a slash resolve to two
    different paths: files next to the descriptor are never confused. *)
Theorem X9_path_injective (file__ fn1 fn2 : string) :
  Str.startswith fn1 "/" = false →
  Str.startswith fn2 "/" = false →
  fn1 ≠ fn2 → _path file__ fn1 ≠ _path file__ fn2.
Proof.
  intros H1 H2 Hne. rewrite !_path_relative by done. intros H.
  by do 2 apply (inj (String.app _)) in H.
Qed.

Lemma X9_witness :
  Str.startswith "scripts/cgerrit" "/" = false
  ∧ Str.startswith "scripts/qgerrit" "/" = false
  ∧ "scripts/cgerrit" ≠ "scripts/qgerrit"
  ∧ _path "/src/setup.py" "scripts/cgerrit"
    ≠ _path "/src/setup.py" "scripts/qgerrit".
Proof.
  assert ("scripts/cgerrit" ≠ "scripts/qgerrit") as Hne by discriminate.
  split; [reflexivity|]. split; [reflexivity|]. split; [exact Hne|].
  exact (X9_path_injective "/src/setup.py" "scripts/cgerrit" "scripts/qgerrit"
           eq_refl eq_refl Hne).
Defined.

(** ** More on the assembly *)

Section more_assembly.

Context (file__ : string) (fs : gmap string file).

Let req := _path file__ "requirements.txt".
Let readme := _path file__ "README.rst".

(** X10: a failing run is the failure of the first reader that fails,
    passed on as it is: when the requirements file cannot be opened or
    read, the run is the run of the requirements reader, log and exception,
    whatever the state of the description file; when the requirements file
    was read and the description file cannot be, the run raises the
    exception of the description loader. *)
Theorem X10_first_failure_is_reported :
  (readable fs req = false →
     ∃ t e, run (_requirements file__) fs = (t, inl e)
            ∧ run (main file__) fs = (t, inl e))
  ∧ (readable fs req = true → readable fs readme = false →
     ∃ e, (run (_long_description file__) fs).2 = inl e
          ∧ (run (main file__) fs).2 = inl e).
Proof.
  rewrite main_run. unfold run.
  rewrite _requirements_run, _long_description_run.
  fold req readme. unfold readable.
  destruct (fs !! req) as [[reqs|]|]; [|split; [eauto|done]..].
  split; [done|]. intros _.
  destruct (fs !! readme) as [[text|]|]; [done|eauto..].
Qed.

(** X11: every run keeps the discipline of [with]: a file is read and
    released only while it is held, a second file is opened only after the
    first has been released, [setup] is called with no file held, and no
    file is held when the run ends, whether it ends well or with an
    exception. *)
Theorem X11_files_are_released :
  disciplined fs None (run (main file__) fs).1 = true.
Proof.
  rewrite main_run. fold req readme.
  destruct (fs !! req) as [[reqs|]|] eqn:Hreq;
    [destruct (fs !! readme) as [[text|]|] eqn:Hreadme|..];
    repeat (simpl;
            first [ rewrite Hreq | rewrite Hreadme
                  | rewrite bool_decide_true by done ]);
    done.
Qed.

(** X12: the manifest of a run that ends well carries the description, the
    author, the author's address, the project URL and the five classifiers
    written in the descriptor. *)
Theorem X12_literal_metadata :
  (run (main file__) fs).2 = inr tt →
  ∃ m, produced (run (main file__) fs).1 = [m]
       ∧ description m = "Gerrit viewer tools"
       ∧ author m = "Joshua Harlow"
       ∧ author_email m = "harlowja@yahoo-inc.com"
       ∧ url m = "http://github.com/harlowja/gerrit_view/"
       ∧ classifiers m = [
           "Development Status :: 4 - Beta";
           "Topic :: Utilities";
           "License :: OSI Approved :: Apache Software License";
           "Operating System :: POSIX :: Linux";
           "Programming Language :: Python"
         ].
Proof.
  rewrite main_run. fold req readme.
  destruct (fs !! req) as [[reqs|]|]; [|done..].
  destruct (fs !! readme) as [[text|]|]; [|done..].
  intros _. eexists. split; [reflexivity|]. by repeat split.
Qed.

End more_assembly.

Lemma X10_witness :
  (readable faulty_tree (_path "setup.py" "requirements.txt") = false
   ∧ ∃ t e, run (_requirements "setup.py") faulty_tree = (t, inl e)
            ∧ run (main "setup.py") faulty_tree = (t, inl e))
  ∧ (readable no_readme_tree (_path "setup.py" "requirements.txt") = true
     ∧ readable no_readme_tree (_path "setup.py" "README.rst") = false
     ∧ ∃ e, (run (_long_description "setup.py") no_readme_tree).2 = inl e
            ∧ (run (main "setup.py") no_readme_tree).2 = inl e).
Proof.
  split.
  - split; [reflexivity|].
    exact (proj1 (X10_first_failure_is_reported "setup.py" faulty_tree)
             eq_refl).
  - split; [reflexivity|]. split; [reflexivity|].
    exact (proj2 (X10_first_failure_is_reported "setup.py" no_readme_tree)
             eq_refl eq_refl).
Defined.

(** The discipline is a real demand: a log that opens a second file while
    the first is held, reads a file that is not held, or ends with a file
    held does not keep it. *)
Example disciplined_rejects :
  disciplined sample_tree None [EOpen "README.rst"; EOpen "requirements.txt"]
    = false
  ∧ disciplined sample_tree None [ERead "README.rst"] = false
  ∧ disciplined sample_tree None [EOpen "README.rst"; ERead "README.rst"]
    = false.
Proof. repeat split. Qed.

Lemma X12_witness :
  (run (main "setup.py") sample_tree).2 = inr tt
  ∧ ∃ m, produced (run (main "setup.py") sample_tree).1 = [m]
         ∧ description m = "Gerrit viewer tools"
         ∧ author m = "Joshua Harlow"
         ∧ author_email m = "harlowja@yahoo-inc.com"
         ∧ url m = "http://github.com/harlowja/gerrit_view/"
         ∧ classifiers m = [
             "Development Status :: 4 - Beta";
             "Topic :: Utilities";
             "License :: OSI Approved :: Apache Software License";
             "Operating System :: POSIX :: Linux";
             "Programming Language :: Python"
           ].
Proof.
  split; [reflexivity|].
  exact (X12_literal_metadata "setup.py" sample_tree eq_refl).
Defined.

(** ** Failures of the two readers *)

(** X13: the reader returns no list, not even an empty one, from a
    requirements file it cannot get at: when the file cannot be opened it
    raises the [IOError] of [open], which names the path of the
    requirements file; when the file opens and reading it fails it raises an
    [IOError] without file name. *)
Theorem X13_reader_failure (file__ : string) (fs : gmap string file) :
  (fs !! _path file__ "requirements.txt" = None →
     (run (_requirements file__) fs).2
     = inl (IOError (Some (_path file__ "requirements.txt"))))
  ∧ (fs !! _path file__ "requirements.txt" = Some Unreadable →
     (run (_requirements file__) fs).2 = inl (IOError None)).
Proof.
  unfold run. rewrite _requirements_run. by split; intros ->.
Qed.

Lemma X13_witness :
  (no_requirements_tree !! _path "setup.py" "requirements.txt" = None
   ∧ (run (_requirements "setup.py") no_requirements_tree).2
     = inl (IOError (Some "requirements.txt")))
  ∧ (faulty_tree !! _path "setup.py" "requirements.txt" = Some Unreadable
     ∧ (run (_requirements "setup.py") faulty_tree).2 = inl (IOError None)).
Proof.
  split; (split; [reflexivity|]).
  - exact (proj1 (X13_reader_failure "setup.py" no_requirements_tree) eq_refl).
  - exact (proj2 (X13_reader_failure "setup.py" faulty_tree) eq_refl).
Defined.

(** X14: the loader returns no text, not even an empty one, from a
    description file it cannot get at: when the file cannot be opened it
    raises the [IOError] of [open], which names the path of the description
    file; when the file opens and reading it fails it raises an [IOError]
    without file name. *)
Theorem X14_loader_failure (file__ : string) (fs : gmap string file) :
  (fs !! _path file__ "README.rst" = None →
     (run (_long_description file__) fs).2
     = inl (IOError (Some (_path file__ "README.rst"))))
  ∧ (fs !! _path file__ "README.rst" = Some Unreadable →
     (run (_long_description file__) fs).2 = inl (IOError None)).
Proof.
  unfold run. rewrite _long_description_run. by split; intros ->.
Qed.

Lemma X14_witness :
  (no_readme_tree !! _path "setup.py" "README.rst" = None
   ∧ (run (_long_description "setup.py") no_readme_tree).2
     = inl (IOError (Some "README.rst")))
  ∧ (faulty_tree !! _path "setup.py" "README.rst" = Some Unreadable
     ∧ (run (_long_description "setup.py") faulty_tree).2
       = inl (IOError None)).
Proof.
  split; (split; [reflexivity|]).
  - exact (proj1 (X14_loader_failure "setup.py" no_readme_tree) eq_refl).
  - exact (proj2 (X14_loader_failure "setup.py" faulty_tree) eq_refl).
Defined.
